(** * PyPOTS developer command ([pypots/utils/commands/dev.py])

    A shallow embedding of [DevCommand]: the argument checks of
    [check_arguments] and the dispatch of [run], over an explicit model of
    the pieces of the operating system the command touches (the working
    directory, its listing, the processes it spawns) and of Python's
    exceptions.

    Conventions of the model:
    - the interpreter runs with assertions enabled (the default, no [-O]);
    - the working directory can be listed, and [os.listdir] reports
      names, so a directory entry is its name;
    - what [shutil.rmtree] can delete is a matter of the system: an
      entry that is a regular file, a symbolic link or a tree the process
      may not delete stays where it is;
    - [BaseCommand.execute_command] and the logger are defined outside
      [dev.py]. A call of either is journaled; what a spawned command
      does to the system, and whether [execute_command] raises for it, is
      a parameter of the development ([spawn] in [Section Executor]). *)

From stdpp Require Import base gmap strings list.

Local Open Scope string_scope.
Local Open Scope list_scope.

(** ** Python exceptions *)

(** The built-in classes that matter for [run]: the two named by its
    [except] clauses, their relatives, and the classes that derive from
    [BaseException] without deriving from [Exception]. *)
Inductive exc_class :=
  | BaseException
  | Exception
  | AssertionError
  | ImportError
  | ModuleNotFoundError
  | RuntimeError
  | OSError
  | FileNotFoundError
  | KeyboardInterrupt
  | SystemExit.

#[global] Instance exc_class_eq_dec : EqDecision exc_class.
Proof. solve_decision. Defined.

(** Method resolution order: the class itself followed by its bases. *)
Definition mro (c : exc_class) : list exc_class :=
  match c with
  | BaseException => [BaseException]
  | Exception => [Exception; BaseException]
  | AssertionError => [AssertionError; Exception; BaseException]
  | ImportError => [ImportError; Exception; BaseException]
  | ModuleNotFoundError =>
      [ModuleNotFoundError; ImportError; Exception; BaseException]
  | RuntimeError => [RuntimeError; Exception; BaseException]
  | OSError => [OSError; Exception; BaseException]
  | FileNotFoundError => [FileNotFoundError; OSError; Exception; BaseException]
  | KeyboardInterrupt => [KeyboardInterrupt; BaseException]
  | SystemExit => [SystemExit; BaseException]
  end.

Definition issubclass (c d : exc_class) : bool := bool_decide (d ∈ mro c).

(** An exception object: its class and its [args] tuple, whose members
    are strings or, as in [RuntimeError(e)], exceptions. *)
Inductive exception :=
  | Exc (cls : exc_class) (args : list exc_arg)
with exc_arg :=
  | ArgStr (s : string)
  | ArgExc (e : exception).

Definition exc_cls (e : exception) : exc_class :=
  match e with Exc c _ => c end.

Definition isinstance (e : exception) (c : exc_class) : bool :=
  issubclass (exc_cls e) c.

(** ** The system the command runs in *)

(** What [os.getcwd()] and [os.listdir(".")] answer, and the names that
    [shutil.rmtree] cannot take away: regular files, symbolic links,
    trees the process may not delete. *)
Record World := {
  getcwd : string;
  listdir : gset string;
  stuck : gset string;
}.

(** What the command does to its surroundings, in order. *)
Inductive event :=
  | Logged (msg : string)        (* logger.info(msg) *)
  | Rmtree (path : string)       (* shutil.rmtree(path, ...) *)
  | Executed (cmd : string).     (* self.execute_command(cmd) *)

#[global] Instance event_eq_dec : EqDecision event.
Proof. solve_decision. Defined.

Record State := {
  world : World;
  journal : list event;
}.

(** ** Computations that read and change the system and may raise *)

Inductive outcome (A : Type) :=
  | Returned (a : A)
  | Raised (e : exception).
Arguments Returned {A} a.
Arguments Raised {A} e.

Definition M (A : Type) : Type := State → State * outcome A.

Definition ret {A} (a : A) : M A := λ s, (s, Returned a).

Definition bind {A B} (m : M A) (k : A → M B) : M B := λ s,
  match m s with
  | (s', Returned a) => k a s'
  | (s', Raised e) => (s', Raised e)
  end.

Definition raise {A} (e : exception) : M A := λ s, (s, Raised e).

Notation "x ←← m ;; k" := (bind m (λ x, k))
  (at level 100, m at next level, right associativity).
Notation "m ;;; k" := (bind m (λ _, k))
  (at level 100, right associativity).

(** [try: m except ...: h]: the handlers see whatever [m] raised, in
    the state [m] left behind. *)
Definition try_except {A} (m : M A) (h : exception → M A) : M A := λ s,
  match m s with
  | (s', Raised e) => h e s'
  | r => r
  end.

Definition record_event (ev : event) : M unit := λ s,
  ({| world := world s; journal := journal s ++ [ev] |}, Returned tt).

Definition os_listdir : M (gset string) := λ s, (s, Returned (listdir (world s))).
Definition os_getcwd : M string := λ s, (s, Returned (getcwd (world s))).

(** [assert cond, msg]: the message is only computed when [cond] fails. *)
Definition py_assert (cond : bool) (msg : M string) : M unit :=
  if cond then ret tt
  else (m ←← msg ;; raise (Exc AssertionError [ArgStr m])).

(** Modelled from the spec: [logger.info(msg)], of the logger that
    [pypots.utils.logging] provides; a diagnostic message is logged and
    that is all. *)
Definition logger_info (msg : string) : M unit := record_event (Logged msg).

Definition remove_entry (path : string) (w : World) : World :=
  {| getcwd := getcwd w; listdir := listdir w ∖ {[path]}; stuck := stuck w |}.

(** [shutil.rmtree(path, ignore_errors=...)] for an entry of the working
    directory. A tree that can be deleted goes away. A missing entry and
    an entry that cannot be deleted are errors, the entry staying as it
    is; [ignore_errors] swallows every one of them. *)
Definition shutil_rmtree (path : string) (ignore_errors : bool) : M unit :=
  record_event (Rmtree path) ;;;
  λ s,
    if bool_decide (path ∈ listdir (world s)) then
      if bool_decide (path ∈ stuck (world s)) then
        if ignore_errors then (s, Returned tt)
        else (s, Raised (Exc OSError [ArgStr path]))
      else
        ({| world := remove_entry path (world s); journal := journal s |},
         Returned tt)
    else if ignore_errors then (s, Returned tt)
    else (s, Raised (Exc FileNotFoundError [ArgStr path])).

(** The system after [shutil.rmtree(path, ignore_errors=True)]: [path]
    is gone unless it is stuck. *)
Definition swept (path : string) (w : World) : World :=
  {| getcwd := getcwd w;
     listdir := listdir w ∖ ({[path]} ∖ stuck w);
     stuck := stuck w |}.

(** ** The command *)

Definition IMPORT_ERROR_MESSAGE : string :=
  "`pypots-cli dev` command is for PyPOTS developers to run tests easily. "
  +:+ "Therefore, you need a complete PyPOTS development environment. However, you are missing some dependencies. "
  +:+ "Please refer to https://github.com/WenjieDu/PyPOTS/blob/main/environment-dev.yml for dependency details. ".

(** The fields set by [__init__]; [_k] is [None] unless [-k] was given. *)
Record DevCommand := {
  _build : bool;
  _cleanup : bool;
  _run_tests : bool;
  _k : option string;
  _show_coverage : bool;
  _lint_code : bool;
}.

(** [x is not None] *)
Definition is_not_None {A} (x : option A) : bool :=
  match x with Some _ => true | None => false end.

(** Truth value of an optional string: [None] and the empty string are
    false. *)
Definition truthy (x : option string) : bool :=
  match x with
  | Some (String _ _) => true
  | Some EmptyString => false
  | None => false
  end.

(** [f"{x}"] for the optional string [x]. *)
Definition format_str (x : option string) : string :=
  match x with Some s => s | None => "None" end.

Definition WORKDIR_MESSAGE (cwd : string) : string :=
  "Command `pypots-cli dev` can only be run under the root directory of project PyPOTS, "
  +:+ "but you're running it under the path " +:+ cwd +:+ ". Please make a check.".

Definition K_MESSAGE : string :=
  "Argument `-k` should combine the use of `--run_tests`. "
  +:+ "Try `pypots-cli dev --run_tests -k your_pattern`".

Definition SHOW_COVERAGE_MESSAGE : string :=
  "Argument `--show_coverage` should combine the use of `--run_tests`. "
  +:+ "Try `pypots-cli dev --run_tests --show_coverage`".

Definition CLEANUP_MESSAGE : string :=
  "Argument `--cleanup` should be used alone. "
  +:+ "Try `pypots-cli dev --cleanup`".

Definition check_arguments (self : DevCommand) : M unit :=
  ls ←← os_listdir ;;
  let containing_docs := bool_decide ("docs" ∈ ls) in
  ls' ←← os_listdir ;;
  let containing_pypots := bool_decide ("pypots" ∈ ls') in
  let whether_under_dir_docs := containing_docs && containing_pypots in
  py_assert whether_under_dir_docs
    (cwd ←← os_getcwd ;; ret (WORKDIR_MESSAGE cwd)) ;;;
  (if is_not_None (_k self)
   then py_assert (_run_tests self) (ret K_MESSAGE)
   else ret tt) ;;;
  (if _show_coverage self
   then py_assert (_run_tests self) (ret SHOW_COVERAGE_MESSAGE)
   else ret tt) ;;;
  (if _cleanup self
   then py_assert (negb (_run_tests self) && negb (_lint_code self))
          (ret CLEANUP_MESSAGE)
   else ret tt).

Definition pytest_command (self : DevCommand) : string :=
  if truthy (_k self) then "pytest -k " +:+ format_str (_k self) else "pytest".

Definition command_to_run_test (self : DevCommand) : string :=
  if _show_coverage self
  then "coverage run -m " +:+ pytest_command self
  else pytest_command self.

(** The handlers of [run], tried in order; an exception that neither
    clause matches keeps propagating. *)
Definition run_handlers (e : exception) : M unit :=
  if isinstance e ImportError then
    raise (Exc ImportError [ArgStr IMPORT_ERROR_MESSAGE])
  else if isinstance e Exception then
    raise (Exc RuntimeError [ArgExc e])
  else raise e.

Section Executor.

(** What running a shell command does to the system, and the exception
    [execute_command] raises for it, if any. *)
Variable spawn : string → World → World * option exception.

(** Modelled from the spec: [self.execute_command(cmd)], inherited from
    [BaseCommand]; the command line is passed on, the call blocks until
    the process is done, and a failure comes back as an exception. *)
Definition execute_command (cmd : string) : M unit :=
  record_event (Executed cmd) ;;;
  λ s,
    let '(w, r) := spawn cmd (world s) in
    ({| world := w; journal := journal s |},
     match r with None => Returned tt | Some e => Raised e end).

Definition cleanup_branch : M unit :=
  shutil_rmtree "build" true ;;;
  shutil_rmtree "dist" true ;;;
  shutil_rmtree "pypots.egg-info" true.

Definition build_branch : M unit :=
  execute_command "python setup.py sdist bdist bdist_wheel".

Definition run_tests_branch (self : DevCommand) : M unit :=
  logger_info ("Executing '" +:+ command_to_run_test self +:+ "'...") ;;;
  execute_command (command_to_run_test self) ;;;
  (if _show_coverage self
   then (execute_command "coverage report -m" ;;;
         execute_command "rm -rf .coverage")
   else ret tt) ;;;
  execute_command "rm -rf .pytest_cache".

Definition lint_code_branch : M unit :=
  logger_info "Reformatting with Black..." ;;;
  execute_command "black ." ;;;
  logger_info "Linting with Flake8..." ;;;
  execute_command "flake8 .".

(** The body of the [try] statement of [run]. *)
Definition run_try_body (self : DevCommand) : M unit :=
  if _cleanup self then cleanup_branch
  else if _build self then build_branch
  else if _run_tests self then run_tests_branch self
  else if _lint_code self then lint_code_branch
  else ret tt.

Definition run (self : DevCommand) : M unit :=
  check_arguments self ;;;
  try_except (run_try_body self) run_handlers.

(** *** Vocabulary of the specification *)

(** The four things the command can be asked to do. *)
Inductive action := Cleanup | Build | RunTests | LintCode.

(** The flag that asks for an action. *)
Definition requested (self : DevCommand) (a : action) : bool :=
  match a with
  | Cleanup => _cleanup self
  | Build => _build self
  | RunTests => _run_tests self
  | LintCode => _lint_code self
  end.

(** cleanup > build > runTests > lintCode *)
Definition priority : list action := [Cleanup; Build; RunTests; LintCode].

(** The first action, in priority order, whose flag is set. *)
Definition chosen_action (self : DevCommand) : option action :=
  List.find (requested self) priority.

(** The sequence of steps that makes up an action. *)
Definition perform (self : DevCommand) (a : action) : M unit :=
  match a with
  | Cleanup => cleanup_branch
  | Build => build_branch
  | RunTests => run_tests_branch self
  | LintCode => lint_code_branch
  end.

(** Run from [w], one after the other, each of [cmds] finishes without
    raising. *)
Fixpoint completes (cmds : list string) (w : World) : bool :=
  match cmds with
  | [] => true
  | c :: cs =>
      match spawn c w with
      | (w', None) => completes cs w'
      | (_, Some _) => false
      end
  end.

End Executor.

(** The working directory holds both [docs] and [pypots]. *)
Definition under_project_root (w : World) : Prop :=
  "docs" ∈ listdir w ∧ "pypots" ∈ listdir w.

#[global] Instance under_project_root_dec w : Decision (under_project_root w).
Proof. unfold under_project_root. apply _. Defined.

(** [check_arguments] lets the command through. *)
Definition validated (self : DevCommand) (s : State) : Prop :=
  check_arguments self s = (s, Returned tt).

(** The exception a failed [assert] with message [msg] raises. *)
Definition assertion_failure (msg : string) : exception :=
  Exc AssertionError [ArgStr msg].

(** The commands of the test action that come before the removal of the
    test cache. *)
Definition before_cache_removal (self : DevCommand) : list string :=
  command_to_run_test self ::
  (if _show_coverage self
   then ["coverage report -m"; "rm -rf .coverage"]
   else []).

(** [self] with the [-k] option left out. *)
Definition without_k (self : DevCommand) : DevCommand :=
  {| _build := _build self; _cleanup := _cleanup self;
     _run_tests := _run_tests self; _k := None;
     _show_coverage := _show_coverage self; _lint_code := _lint_code self |}.

(** ** From the command line to the command *)

Module Cli.

(** The options of [pypots-cli dev] after parsing, one attribute for each
    argument that [register_subcommand] adds: the five [store_true]
    flags and the string option [-k]. *)
Record Namespace := {
  build : bool;
  cleanup : bool;
  run_tests : bool;
  show_coverage : bool;
  k : option string;
  lint_code : bool;
}.

(** What the parser yields when no option is given: a [store_true] flag
    is [False] and [-k] has [default=None]. *)
Definition defaults : Namespace :=
  {| build := false; cleanup := false; run_tests := false;
     show_coverage := false; k := None; lint_code := false |}.

(** [DevCommand.__init__], with its parameters in the order of the
    source. *)
Definition __init__ (build cleanup run_tests : bool) (k : option string)
    (show_coverage lint_code : bool) : DevCommand :=
  {| _build := build; _cleanup := cleanup; _run_tests := run_tests;
     _k := k; _show_coverage := show_coverage; _lint_code := lint_code |}.

Definition dev_command_factory (args : Namespace) : DevCommand :=
  __init__ (build args) (cleanup args) (run_tests args) (k args)
    (show_coverage args) (lint_code args).

End Cli.

(** ** Actions as lists of steps *)

(** The steps an action consists of when nothing raises, in the order of
    the source. *)
Definition steps (self : DevCommand) (a : action) : list event :=
  match a with
  | Cleanup => [Rmtree "build"; Rmtree "dist"; Rmtree "pypots.egg-info"]
  | Build => [Executed "python setup.py sdist bdist bdist_wheel"]
  | RunTests =>
      Logged ("Executing '" +:+ command_to_run_test self +:+ "'...")
      :: map Executed (before_cache_removal self)
      ++ [Executed "rm -rf .pytest_cache"]
  | LintCode =>
      [Logged "Reformatting with Black..."; Executed "black .";
       Logged "Linting with Flake8..."; Executed "flake8 ."]
  end.

(** The steps of the action that [run] dispatches to; none when no flag
    is set. *)
Definition planned_steps (self : DevCommand) : list event :=
  match chosen_action self with
  | Some a => steps self a
  | None => []
  end.

(** The command lines among some steps. *)
Definition executed (evs : list event) : list string :=
  omap (λ ev, match ev with Executed cmd => Some cmd | _ => None end) evs.

Definition is_rmtree (ev : event) : bool :=
  match ev with Rmtree _ => true | _ => false end.

Section Steps.

Variable spawn : string → World → World * option exception.

(** Taking one step: the call that journals it. *)
Definition do_step (ev : event) : M unit :=
  match ev with
  | Logged msg => logger_info msg
  | Rmtree path => shutil_rmtree path true
  | Executed cmd => execute_command spawn cmd
  end.

(** Taking steps one after the other, until one raises. *)
Fixpoint do_steps (evs : list event) : M unit :=
  match evs with
  | [] => ret tt
  | ev :: rest => do_step ev ;;; do_steps rest
  end.

(** The system after [cmds] have run from [w], one after the other. *)
Fixpoint after_commands (cmds : list string) (w : World) : World :=
  match cmds with
  | [] => w
  | c :: cs => after_commands cs (spawn c w).1
  end.

End Steps.

(** More invocations and more ways for commands to end. *)
Module Scenes.

(** [pypots-cli dev --build --run_tests --lint_code -k imputation] *)
Definition dev_build_and_more : DevCommand :=
  {| _build := true; _cleanup := false; _run_tests := true;
     _k := Some "imputation"; _show_coverage := true; _lint_code := true |}.

(** [pypots-cli dev --lint_code] *)
Definition dev_lint : DevCommand :=
  {| _build := false; _cleanup := false; _run_tests := false; _k := None;
     _show_coverage := false; _lint_code := true |}.

(** [pypots-cli dev --cleanup] *)
Definition dev_clean : DevCommand :=
  {| _build := false; _cleanup := true; _run_tests := false; _k := None;
     _show_coverage := false; _lint_code := false |}.

(** [pypots-cli dev --run_tests --show_coverage] *)
Definition dev_tests_coverage : DevCommand :=
  {| _build := false; _cleanup := false; _run_tests := true; _k := None;
     _show_coverage := true; _lint_code := false |}.

(** A checkout after a build and a test run. *)
Definition worked_in : World :=
  {| getcwd := "/home/dev/PyPOTS";
     listdir := {[ "docs"; "pypots"; "setup.py"; "build"; "dist";
                   "pypots.egg-info"; ".pytest_cache" ]};
     stuck := ∅ |}.

(** A checkout whose [dist] directory belongs to another user, so that
    its tree cannot be deleted, and where [pypots.egg-info] is a regular
    file. *)
Definition hindered : World :=
  {| getcwd := "/home/dev/PyPOTS";
     listdir := {[ "docs"; "pypots"; "setup.py"; "build"; "dist";
                   "pypots.egg-info" ]};
     stuck := {[ "dist"; "pypots.egg-info" ]} |}.

Definition fresh (w : World) : State := {| world := w; journal := [] |}.

(** Every command finishes; a build leaves [build], [dist] and
    [pypots.egg-info] behind, a test run leaves [.pytest_cache]. *)
Definition tools_work : string → World → World * option exception :=
  λ cmd w,
    if bool_decide (cmd = "python setup.py sdist bdist bdist_wheel") then
      ({| getcwd := getcwd w;
          listdir := listdir w ∪ {[ "build"; "dist"; "pypots.egg-info" ]};
          stuck := stuck w |},
       None)
    else if bool_decide (cmd = "rm -rf .pytest_cache") then
      ({| getcwd := getcwd w; listdir := listdir w ∖ {[ ".pytest_cache" ]};
          stuck := stuck w |},
       None)
    else (w, None).

(** The formatter cannot be started: [execute_command] raises an
    [OSError] for [black .]. *)
Definition black_fails : string → World → World * option exception :=
  λ cmd w,
    if bool_decide (cmd = "black .")
    then (w, Some (Exc OSError [ArgStr "black"]))
    else (w, None).

(** The user interrupts whatever command is running. *)
Definition interrupted : string → World → World * option exception :=
  λ _ w, (w, Some (Exc KeyboardInterrupt [])).

End Scenes.

(** ** Sample systems and invocations *)

Module Samples.

(** A checkout of the project with leftovers of an earlier build. *)
Definition checkout : World :=
  {| getcwd := "/home/dev/PyPOTS";
     listdir := {[ "docs"; "pypots"; "setup.py"; "build"; "dist" ]};
     stuck := ∅ |}.

(** The [docs] directory of that checkout. *)
Definition docs_dir : World :=
  {| getcwd := "/home/dev/PyPOTS/docs";
     listdir := {[ "figs"; "conf.py" ]};
     stuck := ∅ |}.

Definition start (w : World) : State := {| world := w; journal := [] |}.

Definition no_flags : DevCommand :=
  {| _build := false; _cleanup := false; _run_tests := false; _k := None;
     _show_coverage := false; _lint_code := false |}.

(** [pypots-cli dev --cleanup] *)
Definition dev_cleanup : DevCommand :=
  {| _build := false; _cleanup := true; _run_tests := false; _k := None;
     _show_coverage := false; _lint_code := false |}.

(** [pypots-cli dev --run_tests] *)
Definition dev_run_tests : DevCommand :=
  {| _build := false; _cleanup := false; _run_tests := true; _k := None;
     _show_coverage := false; _lint_code := false |}.

(** [pypots-cli dev --run_tests --show_coverage] *)
Definition dev_run_tests_coverage : DevCommand :=
  {| _build := false; _cleanup := false; _run_tests := true; _k := None;
     _show_coverage := true; _lint_code := false |}.


(** [pypots-cli dev --run_tests -k ''] *)
Definition dev_run_tests_k_empty : DevCommand :=
  {| _build := false; _cleanup := false; _run_tests := true;
     _k := Some EmptyString; _show_coverage := false; _lint_code := false |}.

(** [pypots-cli dev -k imputation] *)
Definition dev_k_alone : DevCommand :=
  {| _build := false; _cleanup := false; _run_tests := false;
     _k := Some "imputation"; _show_coverage := false; _lint_code := false |}.

(** [pypots-cli dev --show_coverage] *)
Definition dev_show_coverage_alone : DevCommand :=
  {| _build := false; _cleanup := false; _run_tests := false; _k := None;
     _show_coverage := true; _lint_code := false |}.

(** [pypots-cli dev --cleanup --run_tests] *)
Definition dev_cleanup_run_tests : DevCommand :=
  {| _build := false; _cleanup := true; _run_tests := true; _k := None;
     _show_coverage := false; _lint_code := false |}.

(** [pypots-cli dev --cleanup --lint_code -k imputation] *)
Definition dev_cleanup_lint_k : DevCommand :=
  {| _build := false; _cleanup := true; _run_tests := false;
     _k := Some "imputation"; _show_coverage := false; _lint_code := true |}.

(** [pypots-cli dev --cleanup --build] *)
Definition dev_cleanup_build : DevCommand :=
  {| _build := true; _cleanup := true; _run_tests := false; _k := None;
     _show_coverage := false; _lint_code := false |}.

(** [pypots-cli dev --cleanup --build --show_coverage] *)
Definition dev_cleanup_build_coverage : DevCommand :=
  {| _build := true; _cleanup := true; _run_tests := false; _k := None;
     _show_coverage := true; _lint_code := false |}.

(** [pypots-cli dev --lint_code] *)
Definition dev_lint_code : DevCommand :=
  {| _build := false; _cleanup := false; _run_tests := false; _k := None;
     _show_coverage := false; _lint_code := true |}.

(** Every command finishes and leaves the directory as it was. *)
Definition all_pass : string → World → World * option exception :=
  λ _ w, (w, None).

(** The test suite fails: the test run, with or without coverage, makes
    [execute_command] raise. *)
Definition tests_fail : string → World → World * option exception :=
  λ cmd w,
    if bool_decide (cmd ∈ ["pytest"; "coverage run -m pytest"])
    then (w, Some (Exc RuntimeError []))
    else (w, None).

(** A tool of the development environment cannot be imported. *)
Definition tool_missing : string → World → World * option exception :=
  λ _ w, (w, Some (Exc ModuleNotFoundError [ArgStr "No module named 'black'"])).

End Samples.

(** ** Validation *)

Section Validation.

Implicit Types (self : DevCommand) (s : State) (w : World).

Ltac unfold_check :=
  unfold check_arguments, py_assert, os_listdir, os_getcwd, bind, ret, raise,
    assertion_failure.

(** Outside the project root the first assertion fails, whatever the
    flags. *)
Lemma check_arguments_elsewhere self s :
  ¬ under_project_root (world s) →
  check_arguments self s
  = (s, Raised (assertion_failure (WORKDIR_MESSAGE (getcwd (world s))))).
Proof.
  intros Hwd. unfold_check.
  destruct (bool_decide ("docs" ∈ listdir (world s))) eqn:Hd;
    destruct (bool_decide ("pypots" ∈ listdir (world s))) eqn:Hp;
    simpl; try reflexivity.
  exfalso. apply Hwd. split; eapply bool_decide_eq_true_1; eassumption.
Qed.

(** In the project root the outcome is decided by the flags alone: the
    three dependent-flag assertions, in the order of the source. *)
Lemma check_arguments_at_root self s :
  under_project_root (world s) →
  check_arguments self s
  = (s,
     if is_not_None (_k self) && negb (_run_tests self)
     then Raised (assertion_failure K_MESSAGE)
     else if _show_coverage self && negb (_run_tests self)
     then Raised (assertion_failure SHOW_COVERAGE_MESSAGE)
     else if _cleanup self && (_run_tests self || _lint_code self)
     then Raised (assertion_failure CLEANUP_MESSAGE)
     else Returned tt).
Proof.
  intros [Hd Hp]. unfold_check.
  rewrite !bool_decide_eq_true_2 by assumption. simpl.
  destruct self as [b c r [k|] sc l]; simpl;
    destruct r, sc, c, l; reflexivity.
Qed.

(** Checking the arguments changes nothing. *)
Lemma check_arguments_state self s : (check_arguments self s).1 = s.
Proof.
  destruct (decide (under_project_root (world s))) as [Hwd|Hwd].
  - rewrite check_arguments_at_root by assumption. reflexivity.
  - rewrite check_arguments_elsewhere by assumption. reflexivity.
Qed.

(** A command is only let through in the project root. *)
Lemma validated_at_root self s : validated self s → under_project_root (world s).
Proof.
  unfold validated. intros Hv.
  destruct (decide (under_project_root (world s))) as [Hwd|Hwd]; [assumption|].
  rewrite check_arguments_elsewhere in Hv by assumption. discriminate.
Qed.

End Validation.

(** ** Running the command *)

Section Run.

Variable spawn : string → World → World * option exception.

Implicit Types (self : DevCommand) (s : State) (w : World).

(** A rejected command raises the assertion failure itself: the checks
    stand before the [try] statement, so nothing wraps it and nothing
    has been run. *)
Lemma run_rejected self s e :
  check_arguments self s = (s, Raised e) → run spawn self s = (s, Raised e).
Proof. intros Hc. unfold run, bind. rewrite Hc. reflexivity. Qed.

(** A validated command goes on with the guarded body. *)
Lemma run_validated self s :
  validated self s →
  run spawn self s = try_except (run_try_body spawn self) run_handlers s.
Proof. intros Hv. unfold run, bind. rewrite Hv. reflexivity. Qed.

Lemma execute_command_eq cmd s :
  execute_command spawn cmd s
  = ({| world := (spawn cmd (world s)).1;
        journal := journal s ++ [Executed cmd] |},
     match (spawn cmd (world s)).2 with
     | None => Returned tt
     | Some e => Raised e
     end).
Proof.
  unfold execute_command, bind, record_event. simpl.
  destruct (spawn cmd (world s)) as [w r]. reflexivity.
Qed.

(** C3: in a working directory that lacks [docs] or [pypots], whatever
    the flags, validation fails with the assertion error whose message
    names that directory; [run] ends with this very error in the state
    it started from, so no step of any action was taken before it. *)
Theorem wrong_directory_rejected self s :
  ¬ under_project_root (world s) →
  check_arguments self s
  = (s, Raised (assertion_failure (WORKDIR_MESSAGE (getcwd (world s)))))
  ∧ run spawn self s
    = (s, Raised (assertion_failure (WORKDIR_MESSAGE (getcwd (world s)))))
  ∧ ∃ pre post,
      WORKDIR_MESSAGE (getcwd (world s)) = pre +:+ getcwd (world s) +:+ post.
Proof.
  intros Hwd.
  pose proof (check_arguments_elsewhere self s Hwd) as Hc.
  split; [exact Hc|]. split; [exact (run_rejected _ _ _ Hc)|].
  exists ("Command `pypots-cli dev` can only be run under the root directory of project PyPOTS, "
          +:+ "but you're running it under the path "), ". Please make a check.".
  reflexivity.
Qed.

(** C4: in the project root, a test filter without [--run_tests] fails
    validation with the [-k] usage error, and [--show_coverage] without
    [--run_tests] fails it with a combined-usage error as well: its own
    when no filter is given, the one of [-k], which is checked first,
    otherwise. *)
Theorem dependent_flags_need_run_tests self s :
  under_project_root (world s) →
  _run_tests self = false →
  (∀ p, _k self = Some p →
     check_arguments self s = (s, Raised (assertion_failure K_MESSAGE)))
  ∧ (_show_coverage self = true →
     check_arguments self s
     = (s, Raised (assertion_failure
                     match _k self with
                     | Some _ => K_MESSAGE
                     | None => SHOW_COVERAGE_MESSAGE
                     end))).
Proof.
  intros Hwd Hr. rewrite (check_arguments_at_root self s Hwd), Hr.
  split.
  - intros p Hk. rewrite Hk. reflexivity.
  - intros Hsc. rewrite Hsc. destruct (_k self); reflexivity.
Qed.

(** C5, amended: in the project root, [--cleanup] together with
    [--run_tests] or [--lint_code] always fails validation and nothing
    is dispatched. The error is the one saying that cleanup is to be
    used alone, unless [--run_tests] is off and [-k] or
    [--show_coverage] is given: then the earlier check of that option
    fails first, with its own message. *)
Theorem cleanup_with_tests_or_lint_rejected self s :
  under_project_root (world s) →
  _cleanup self = true →
  _run_tests self || _lint_code self = true →
  ∃ msg,
    check_arguments self s = (s, Raised (assertion_failure msg))
    ∧ run spawn self s = (s, Raised (assertion_failure msg))
    ∧ msg = (if _run_tests self then CLEANUP_MESSAGE
             else if is_not_None (_k self) then K_MESSAGE
             else if _show_coverage self then SHOW_COVERAGE_MESSAGE
             else CLEANUP_MESSAGE).
Proof.
  intros Hwd Hc Hrl.
  set (msg := if _run_tests self then CLEANUP_MESSAGE
              else if is_not_None (_k self) then K_MESSAGE
              else if _show_coverage self then SHOW_COVERAGE_MESSAGE
              else CLEANUP_MESSAGE).
  assert (check_arguments self s = (s, Raised (assertion_failure msg))) as Hchk.
  { rewrite (check_arguments_at_root self s Hwd), Hc. subst msg.
    destruct (_run_tests self), (_k self), (_show_coverage self);
      simpl in *; rewrite ?Hrl; reflexivity. }
  exists msg. split; [exact Hchk|].
  split; [exact (run_rejected _ _ _ Hchk)|reflexivity].
Qed.

(** *** Dispatch *)

(** The if/elif chain of [run] picks the first set flag in priority
    order and does what that action consists of. *)
Lemma run_try_body_chosen self :
  run_try_body spawn self
  = match chosen_action self with
    | Some a => perform spawn self a
    | None => ret tt
    end.
Proof.
  unfold run_try_body, chosen_action. simpl.
  destruct (_cleanup self), (_build self), (_run_tests self),
    (_lint_code self); reflexivity.
Qed.

(** What [chosen_action] means: the flag of the chosen action is set and
    the flag of every action that comes before it is not. *)
Lemma chosen_action_first self a :
  chosen_action self = Some a ↔
  ∃ before after : list action,
    priority = before ++ a :: after
    ∧ requested self a = true
    ∧ Forall (λ b, requested self b = false) before.
Proof.
  unfold chosen_action, priority. split.
  - simpl. destruct (_cleanup self) eqn:Hc; [|destruct (_build self) eqn:Hb;
      [|destruct (_run_tests self) eqn:Hr; [|destruct (_lint_code self) eqn:Hl]]];
      intros [= <-].
    + exists [], [Build; RunTests; LintCode]. auto.
    + exists [Cleanup], [RunTests; LintCode]. repeat split; auto.
    + exists [Cleanup; Build], [LintCode]. repeat split; auto.
    + exists [Cleanup; Build; RunTests], []. repeat split; auto.
  - intros (before & after & Hp & Ha & Hb).
    destruct before as [|b1 [|b2 [|b3 [|b4 before]]]];
      simplify_eq/=; repeat match goal with
                            | H : Forall _ (_ :: _) |- _ =>
                                apply Forall_cons_1 in H; destruct H
                            end;
      simpl in *; repeat match goal with
                         | H : _ self = _ |- _ => rewrite H
                         end; try reflexivity.
    destruct before; discriminate.
Qed.

Lemma chosen_action_none self :
  chosen_action self = None ↔ ∀ a, requested self a = false.
Proof.
  unfold chosen_action, priority. simpl. split.
  - destruct (_cleanup self) eqn:Hc, (_build self) eqn:Hb,
      (_run_tests self) eqn:Hr, (_lint_code self) eqn:Hl; try discriminate.
    intros _ []; assumption.
  - intros H.
    pose proof (H Cleanup) as Hc. pose proof (H Build) as Hb.
    pose proof (H RunTests) as Hr. pose proof (H LintCode) as Hl.
    simpl in Hc, Hb, Hr, Hl. rewrite Hc, Hb, Hr, Hl. reflexivity.
Qed.

(** The handlers only replace the exception. *)
Lemma run_handlers_state e s : (run_handlers e s).1 = s.
Proof.
  unfold run_handlers, raise.
  destruct (isinstance e ImportError), (isinstance e Exception); reflexivity.
Qed.

Lemma guarded_state (m : M unit) s : (try_except m run_handlers s).1 = (m s).1.
Proof.
  unfold try_except. destruct (m s) as [s' [[]|e]]; [reflexivity|].
  apply run_handlers_state.
Qed.

(** *** Cleanup *)

(** With [ignore_errors=True] the call never raises; it removes what it
    can. *)
Lemma shutil_rmtree_ignoring path s :
  shutil_rmtree path true s
  = ({| world := swept path (world s);
        journal := journal s ++ [Rmtree path] |},
     Returned tt).
Proof.
  unfold shutil_rmtree, bind, record_event. simpl.
  assert (∀ L S : gset string,
            path ∉ L ∨ path ∈ S → L = L ∖ ({[path]} ∖ S)) as Hkeep.
  { intros L S Hps. symmetry. apply difference_disjoint_L.
    apply elem_of_disjoint. intros x HxL [Hx HxS]%elem_of_difference.
    apply elem_of_singleton in Hx. subst x. destruct Hps; auto. }
  unfold swept, remove_entry. destruct (world s) as [cwd L S]. simpl.
  case_bool_decide as Hin; [case_bool_decide as Hst|]; simpl.
  - do 3 f_equal. apply Hkeep. auto.
  - do 3 f_equal. apply set_eq. intros x.
    rewrite !elem_of_difference, elem_of_singleton.
    split; [intros [? ?]; split; [assumption|intros [-> _]; auto]|].
    intros [HxL Hn]. split; [assumption|]. intros ->. apply Hn. auto.
  - do 3 f_equal. apply Hkeep. auto.
Qed.

Lemma cleanup_branch_eq s :
  cleanup_branch s
  = ({| world :=
          {| getcwd := getcwd (world s);
             listdir :=
               listdir (world s)
               ∖ ({[ "build"; "dist"; "pypots.egg-info" ]} ∖ stuck (world s));
             stuck := stuck (world s) |};
        journal :=
          journal s
          ++ [Rmtree "build"; Rmtree "dist"; Rmtree "pypots.egg-info"] |},
     Returned tt).
Proof.
  clear spawn.
  unfold cleanup_branch, bind. rewrite !shutil_rmtree_ignoring. simpl.
  rewrite <- !app_assoc. simpl. do 2 f_equal. unfold swept. simpl.
  f_equal. rewrite !difference_difference_l_L. f_equal.
  apply set_eq. intros x.
  rewrite !elem_of_union, !elem_of_difference, !elem_of_union. tauto.
Qed.

(** With [--cleanup] a validated command is the cleanup and nothing
    else. *)
Lemma run_cleanup self s :
  validated self s → _cleanup self = true →
  run spawn self s = cleanup_branch s.
Proof.
  intros Hv Hc. rewrite (run_validated self s Hv).
  unfold try_except, run_try_body. rewrite Hc, cleanup_branch_eq. reflexivity.
Qed.

(** C6, amended: the cleanup action calls [rmtree] on [build], [dist]
    and [pypots.egg-info], in this order and on nothing else, every error
    being ignored: it returns normally whatever the directory holds;
    afterwards the directory holds what it held before except those of
    the three that could be deleted; one that is missing or cannot be
    deleted is passed over in silence. *)
Theorem cleanup_removes_three_directories self s :
  validated self s →
  _cleanup self = true →
  (run spawn self s).2 = Returned tt
  ∧ listdir (world (run spawn self s).1)
    = listdir (world s)
      ∖ ({[ "build"; "dist"; "pypots.egg-info" ]} ∖ stuck (world s))
  ∧ getcwd (world (run spawn self s).1) = getcwd (world s)
  ∧ stuck (world (run spawn self s).1) = stuck (world s)
  ∧ journal (run spawn self s).1
    = journal s ++ [Rmtree "build"; Rmtree "dist"; Rmtree "pypots.egg-info"].
Proof.
  intros Hv Hc. rewrite (run_cleanup self s Hv Hc), cleanup_branch_eq.
  simpl. auto.
Qed.

(** C10, amended: with [--cleanup --build], no [--run_tests], no
    [--lint_code], and neither [-k] nor [--show_coverage], validation
    succeeds in the project root; the cleanup runs and no command is
    executed, the build in particular. *)
Theorem cleanup_with_build_runs_cleanup_only self s :
  under_project_root (world s) →
  _cleanup self = true → _build self = true →
  _run_tests self = false → _lint_code self = false →
  _k self = None → _show_coverage self = false →
  validated self s
  ∧ run spawn self s = cleanup_branch s
  ∧ journal (run spawn self s).1
    = journal s ++ [Rmtree "build"; Rmtree "dist"; Rmtree "pypots.egg-info"]
  ∧ ∀ cmd, Executed cmd ∈ journal (run spawn self s).1 → Executed cmd ∈ journal s.
Proof.
  intros Hwd Hc Hb Hr Hl Hk Hsc.
  assert (validated self s) as Hv.
  { unfold validated. rewrite (check_arguments_at_root self s Hwd).
    rewrite Hc, Hr, Hl, Hk, Hsc. reflexivity. }
  split; [exact Hv|]. rewrite (run_cleanup self s Hv Hc).
  split; [reflexivity|]. rewrite cleanup_branch_eq. simpl.
  split; [reflexivity|]. intros cmd [Hin|Hin]%elem_of_app; [exact Hin|].
  rewrite !elem_of_cons, elem_of_nil in Hin.
  destruct Hin as [?|[?|[?|[]]]]; discriminate.
Qed.

(** *** Tests *)

Lemma run_run_tests self s :
  validated self s →
  _cleanup self = false → _build self = false → _run_tests self = true →
  (run spawn self s).1 = (run_tests_branch spawn self s).1.
Proof.
  intros Hv Hc Hb Hr. rewrite (run_validated self s Hv), guarded_state.
  unfold run_try_body. rewrite Hc, Hb, Hr. reflexivity.
Qed.

(** The test action announces the test command and executes it; what
    follows depends on how the commands end. *)
Lemma run_tests_branch_start self s :
  ∃ rest,
    journal (run_tests_branch spawn self s).1
    = journal s
      ++ [Logged ("Executing '" +:+ command_to_run_test self +:+ "'...");
          Executed (command_to_run_test self)]
      ++ rest.
Proof.
  unfold run_tests_branch, logger_info, bind, record_event, ret.
  rewrite ?execute_command_eq. simpl.
  destruct (spawn (command_to_run_test self) (world s)) as [w1 [e1|]]; simpl.
  { exists []. rewrite <- app_assoc. reflexivity. }
  destruct (_show_coverage self).
  - rewrite ?execute_command_eq. simpl.
    destruct (spawn "coverage report -m" w1) as [w2 [e2|]]; simpl.
    { eexists. rewrite <- !app_assoc. reflexivity. }
    rewrite ?execute_command_eq. simpl.
    destruct (spawn "rm -rf .coverage" w2) as [w3 [e3|]]; simpl.
    { eexists. rewrite <- !app_assoc. reflexivity. }
    rewrite ?execute_command_eq. simpl.
    eexists. rewrite <- !app_assoc. reflexivity.
  - rewrite ?execute_command_eq. simpl.
    eexists. rewrite <- !app_assoc. reflexivity.
Qed.


(** When every command before it completes, the removal of the test
    cache is the last thing the test action does. *)
Lemma run_tests_branch_complete self s :
  completes spawn (before_cache_removal self) (world s) = true →
  journal (run_tests_branch spawn self s).1
  = journal s
    ++ Logged ("Executing '" +:+ command_to_run_test self +:+ "'...")
       :: map Executed (before_cache_removal self)
    ++ [Executed "rm -rf .pytest_cache"].
Proof.
  unfold before_cache_removal, completes.
  unfold run_tests_branch, logger_info, bind, record_event, ret.
  rewrite ?execute_command_eq. simpl.
  destruct (spawn (command_to_run_test self) (world s)) as [w1 [e1|]];
    [discriminate|]. simpl.
  destruct (_show_coverage self); simpl.
  - rewrite ?execute_command_eq. simpl.
    destruct (spawn "coverage report -m" w1) as [w2 [e2|]]; [discriminate|].
    simpl. rewrite ?execute_command_eq. simpl.
    destruct (spawn "rm -rf .coverage" w2) as [w3 [e3|]]; [discriminate|].
    intros _. simpl. rewrite ?execute_command_eq. simpl.
    rewrite <- !app_assoc. reflexivity.
  - intros _. rewrite ?execute_command_eq. simpl.
    rewrite <- !app_assoc. reflexivity.
Qed.

Lemma command_to_run_test_not_rm self :
  Executed (command_to_run_test self) ≠ Executed "rm -rf .pytest_cache".
Proof.
  unfold command_to_run_test, pytest_command.
  destruct (_show_coverage self), (truthy (_k self)); discriminate.
Qed.

(** When one of them raises, the test action ends there, before the
    removal of the test cache. *)
Lemma run_tests_branch_incomplete self s :
  completes spawn (before_cache_removal self) (world s) = false →
  ∃ new,
    journal (run_tests_branch spawn self s).1 = journal s ++ new
    ∧ Executed "rm -rf .pytest_cache" ∉ new.
Proof.
  pose proof (command_to_run_test_not_rm self) as Hne.
  unfold before_cache_removal, completes.
  unfold run_tests_branch, logger_info, bind, record_event, ret.
  rewrite ?execute_command_eq. simpl.
  destruct (spawn (command_to_run_test self) (world s)) as [w1 [e1|]]; simpl.
  { intros _. eexists. rewrite <- !app_assoc. split; [reflexivity|].
    simpl. rewrite !elem_of_cons, elem_of_nil.
    intros [H|[H|[]]]; [discriminate H|]. apply Hne. symmetry. exact H. }
  destruct (_show_coverage self); simpl; [|discriminate].
  rewrite ?execute_command_eq. simpl.
  destruct (spawn "coverage report -m" w1) as [w2 [e2|]]; simpl.
  { intros _. eexists. rewrite <- !app_assoc. split; [reflexivity|].
    simpl. rewrite !elem_of_cons, elem_of_nil.
    intros [H|[H|[H|[]]]]; try discriminate H. apply Hne. symmetry. exact H. }
  rewrite ?execute_command_eq. simpl.
  destruct (spawn "rm -rf .coverage" w2) as [w3 [e3|]]; simpl; [|discriminate].
  intros _. eexists. rewrite <- !app_assoc. split; [reflexivity|].
  simpl. rewrite !elem_of_cons, elem_of_nil.
  intros [H|[H|[H|[H|[]]]]]; try discriminate H. apply Hne. symmetry. exact H.
Qed.

(** C2, amended: in the test action, when the test runner and, with
    coverage, the report and the removal of the coverage data complete
    without raising, the removal of the test cache is executed after
    them, as the last step, with and without coverage; when one of them
    raises, the removal of the test cache is not among the steps taken. *)
Theorem test_cache_removed_when_steps_complete self s :
  validated self s →
  _cleanup self = false → _build self = false → _run_tests self = true →
  (completes spawn (before_cache_removal self) (world s) = true →
   journal (run spawn self s).1
   = journal s
     ++ Logged ("Executing '" +:+ command_to_run_test self +:+ "'...")
        :: map Executed (before_cache_removal self)
     ++ [Executed "rm -rf .pytest_cache"])
  ∧ (completes spawn (before_cache_removal self) (world s) = false →
     ∃ new,
       journal (run spawn self s).1 = journal s ++ new
       ∧ Executed "rm -rf .pytest_cache" ∉ new).
Proof.
  intros Hv Hc Hb Hr. rewrite (run_run_tests self s Hv Hc Hb Hr). split.
  - apply run_tests_branch_complete.
  - apply run_tests_branch_incomplete.
Qed.


(** C9: an empty filter together with [--run_tests]. The test of
    validation ([is not None]) holds for it and the test of dispatch
    (its truth value) does not; the test command is plain [pytest]; the
    whole run is the run of the same command line without [-k]; and
    when the test action is reached, validation has passed and the
    command executed carries no filter. *)
Theorem empty_filter_validated_then_ignored self s :
  under_project_root (world s) →
  _k self = Some EmptyString →
  _run_tests self = true →
  is_not_None (_k self) = true
  ∧ truthy (_k self) = false
  ∧ pytest_command self = "pytest"
  ∧ run spawn self s = run spawn (without_k self) s
  ∧ (_cleanup self = false → _build self = false →
     validated self s
     ∧ ∃ rest,
         journal (run spawn self s).1
         = journal s
           ++ [Logged ("Executing '"
                       +:+ (if _show_coverage self
                            then "coverage run -m pytest" else "pytest")
                       +:+ "'...");
               Executed (if _show_coverage self
                         then "coverage run -m pytest" else "pytest")]
           ++ rest).
Proof.
  intros Hwd Hk Hr.
  assert (pytest_command self = "pytest") as Hp
    by (unfold pytest_command; rewrite Hk; reflexivity).
  assert (command_to_run_test self
          = if _show_coverage self then "coverage run -m pytest" else "pytest")
    as Hcmd
    by (unfold command_to_run_test; rewrite Hp;
        destruct (_show_coverage self); reflexivity).
  rewrite Hk. do 3 (split; [reflexivity || exact Hp|]).
  split.
  - assert (run_try_body spawn self = run_try_body spawn (without_k self))
      as Hbody.
    { unfold run_try_body, run_tests_branch, command_to_run_test,
        pytest_command. simpl. rewrite Hk. reflexivity. }
    assert (check_arguments self s = check_arguments (without_k self) s)
      as Hcheck.
    { rewrite (check_arguments_at_root self s Hwd).
      rewrite (check_arguments_at_root (without_k self) s Hwd).
      simpl. rewrite Hk, Hr. reflexivity. }
    unfold run. rewrite Hbody. unfold bind. rewrite Hcheck. reflexivity.
  - intros Hc Hb.
    assert (validated self s) as Hv.
    { unfold validated. rewrite (check_arguments_at_root self s Hwd).
      rewrite Hk, Hr, Hc. simpl.
      destruct (_show_coverage self); reflexivity. }
    split; [exact Hv|]. rewrite (run_run_tests self s Hv Hc Hb Hr).
    rewrite <- Hcmd. apply run_tests_branch_start.
Qed.

(** *** Failures *)

(** What is not an [Exception] (an interrupt, a request to exit) passes
    through [run] as it is. *)
Lemma run_passes_non_exceptions self s s' e :
  validated self s →
  run_try_body spawn self s = (s', Raised e) →
  isinstance e Exception = false →
  run spawn self s = (s', Raised e).
Proof.
  intros Hv Hbody He. rewrite (run_validated self s Hv).
  unfold try_except. rewrite Hbody. unfold run_handlers.
  destruct e as [[] args]; try discriminate He; reflexivity.
Qed.

(** C8: when the action of a validated command raises [e], an import
    failure ([ImportError] or a subclass of it) is replaced by an
    [ImportError] carrying the message that points to
    [environment-dev.yml]; any other [Exception] is replaced by a
    [RuntimeError] whose argument is [e] itself. *)
Theorem failures_are_reported self s s' e :
  validated self s →
  run_try_body spawn self s = (s', Raised e) →
  (isinstance e ImportError = true →
     run spawn self s
     = (s', Raised (Exc ImportError [ArgStr IMPORT_ERROR_MESSAGE])))
  ∧ (isinstance e ImportError = false → isinstance e Exception = true →
     run spawn self s = (s', Raised (Exc RuntimeError [ArgExc e])))
  ∧ ∃ pre post,
      IMPORT_ERROR_MESSAGE
      = pre
        +:+ "https://github.com/WenjieDu/PyPOTS/blob/main/environment-dev.yml"
        +:+ post.
Proof.
  intros Hv Hbody. rewrite (run_validated self s Hv).
  unfold try_except. rewrite Hbody. unfold run_handlers, raise.
  split; [|split].
  - intros ->. reflexivity.
  - intros -> ->. reflexivity.
  - exists ("`pypots-cli dev` command is for PyPOTS developers to run tests easily. "
            +:+ "Therefore, you need a complete PyPOTS development environment. However, you are missing some dependencies. "
            +:+ "Please refer to "),
           " for dependency details. ".
    reflexivity.
Qed.

End Run.

(** C3 at work: [--run_tests] from inside [docs]. *)
Lemma wrong_directory_rejected_witness :
  ¬ under_project_root Samples.docs_dir
  ∧ run Samples.all_pass Samples.dev_run_tests (Samples.start Samples.docs_dir)
    = (Samples.start Samples.docs_dir,
       Raised (assertion_failure
         ("Command `pypots-cli dev` can only be run under the root directory of project PyPOTS, "
          +:+ "but you're running it under the path /home/dev/PyPOTS/docs. Please make a check."))).
Proof.
  assert (¬ under_project_root Samples.docs_dir) as Hwd by compute_done.
  split; [exact Hwd|].
  exact (proj1 (proj2 (wrong_directory_rejected Samples.all_pass
           Samples.dev_run_tests (Samples.start Samples.docs_dir) Hwd))).
Defined.

(** C4 at work: [-k imputation] and [--show_coverage], each on its own. *)
Lemma dependent_flags_need_run_tests_witness :
  under_project_root Samples.checkout
  ∧ check_arguments Samples.dev_k_alone (Samples.start Samples.checkout)
    = (Samples.start Samples.checkout, Raised (assertion_failure K_MESSAGE))
  ∧ check_arguments Samples.dev_show_coverage_alone (Samples.start Samples.checkout)
    = (Samples.start Samples.checkout,
       Raised (assertion_failure SHOW_COVERAGE_MESSAGE)).
Proof.
  assert (under_project_root Samples.checkout) as Hwd by compute_done.
  split; [exact Hwd|]. split.
  - exact (proj1 (dependent_flags_need_run_tests Samples.dev_k_alone
             (Samples.start Samples.checkout) Hwd eq_refl) "imputation" eq_refl).
  - exact (proj2 (dependent_flags_need_run_tests Samples.dev_show_coverage_alone
             (Samples.start Samples.checkout) Hwd eq_refl) eq_refl).
Defined.

(** C5 as stated fails: with [--cleanup --lint_code -k imputation] in the
    project root the error raised is the one of [-k], not the one saying
    that cleanup is to be used alone. *)
Lemma cleanup_error_masked_by_k :
  under_project_root Samples.checkout
  ∧ _cleanup Samples.dev_cleanup_lint_k = true
  ∧ _run_tests Samples.dev_cleanup_lint_k || _lint_code Samples.dev_cleanup_lint_k
    = true
  ∧ check_arguments Samples.dev_cleanup_lint_k (Samples.start Samples.checkout)
    = (Samples.start Samples.checkout, Raised (assertion_failure K_MESSAGE))
  ∧ check_arguments Samples.dev_cleanup_lint_k (Samples.start Samples.checkout)
    ≠ (Samples.start Samples.checkout, Raised (assertion_failure CLEANUP_MESSAGE)).
Proof.
  assert (under_project_root Samples.checkout) as Hwd by compute_done.
  split; [exact Hwd|]. do 2 (split; [reflexivity|]).
  rewrite (check_arguments_at_root Samples.dev_cleanup_lint_k
             (Samples.start Samples.checkout) Hwd). simpl.
  split; [reflexivity|].
  intros Heq. vm_compute in Heq. discriminate Heq.
Qed.

(** C5, amended, at work: [--cleanup --run_tests]. *)
Lemma cleanup_with_tests_or_lint_rejected_witness :
  under_project_root Samples.checkout
  ∧ ∃ msg,
      run Samples.all_pass Samples.dev_cleanup_run_tests
        (Samples.start Samples.checkout)
      = (Samples.start Samples.checkout, Raised (assertion_failure msg))
      ∧ msg = CLEANUP_MESSAGE.
Proof.
  assert (under_project_root Samples.checkout) as Hwd by compute_done.
  split; [exact Hwd|].
  destruct (cleanup_with_tests_or_lint_rejected Samples.all_pass
              Samples.dev_cleanup_run_tests (Samples.start Samples.checkout)
              Hwd eq_refl eq_refl) as (msg & _ & Hrun & Hmsg).
  exists msg. split; [exact Hrun|exact Hmsg].
Defined.

(** C2 as stated fails: when the test suite fails, [execute_command]
    raises on [pytest] and [run] ends there; the test cache is not
    removed. *)
Lemma test_cache_kept_when_tests_fail :
  validated Samples.dev_run_tests (Samples.start Samples.checkout)
  ∧ chosen_action Samples.dev_run_tests = Some RunTests
  ∧ run Samples.tests_fail Samples.dev_run_tests (Samples.start Samples.checkout)
    = ({| world := Samples.checkout;
          journal := [Logged "Executing 'pytest'..."; Executed "pytest"] |},
       Raised (Exc RuntimeError [ArgExc (Exc RuntimeError [])]))
  ∧ Executed "rm -rf .pytest_cache"
    ∉ journal (run Samples.tests_fail Samples.dev_run_tests
                 (Samples.start Samples.checkout)).1.
Proof.
  split; [vm_compute; reflexivity|]. split; [reflexivity|].
  assert (run Samples.tests_fail Samples.dev_run_tests
            (Samples.start Samples.checkout)
          = ({| world := Samples.checkout;
                journal := [Logged "Executing 'pytest'..."; Executed "pytest"] |},
             Raised (Exc RuntimeError [ArgExc (Exc RuntimeError [])]))) as Hrun
    by (vm_compute; reflexivity).
  split; [exact Hrun|]. rewrite Hrun. simpl.
  rewrite !elem_of_cons, elem_of_nil.
  intros [H|[H|[]]]; discriminate H.
Qed.

(** C2, amended, at work: [--run_tests --show_coverage] with every step
    completing. *)
Lemma test_cache_removed_when_steps_complete_witness :
  validated Samples.dev_run_tests_coverage (Samples.start Samples.checkout)
  ∧ completes Samples.all_pass
      (before_cache_removal Samples.dev_run_tests_coverage) Samples.checkout
    = true
  ∧ journal (run Samples.all_pass Samples.dev_run_tests_coverage
               (Samples.start Samples.checkout)).1
    = [Logged "Executing 'coverage run -m pytest'...";
       Executed "coverage run -m pytest";
       Executed "coverage report -m";
       Executed "rm -rf .coverage";
       Executed "rm -rf .pytest_cache"].
Proof.
  assert (validated Samples.dev_run_tests_coverage
            (Samples.start Samples.checkout)) as Hv by (vm_compute; reflexivity).
  split; [exact Hv|]. split; [reflexivity|].
  exact (proj1 (test_cache_removed_when_steps_complete Samples.all_pass
                  Samples.dev_run_tests_coverage (Samples.start Samples.checkout)
                  Hv eq_refl eq_refl eq_refl) eq_refl).
Defined.

(** C6 as stated fails: in a checkout whose [dist] tree cannot be
    deleted the cleanup returns normally, and [dist], which is present,
    is still there afterwards. *)
Lemma cleanup_passes_over_what_it_cannot_delete :
  validated Samples.dev_cleanup (Samples.start Scenes.hindered)
  ∧ "dist" ∈ listdir Scenes.hindered
  ∧ (run Samples.all_pass Samples.dev_cleanup
       (Samples.start Scenes.hindered)).2
    = Returned tt
  ∧ "dist" ∈ listdir (world (run Samples.all_pass Samples.dev_cleanup
                               (Samples.start Scenes.hindered)).1)
  ∧ listdir (world (run Samples.all_pass Samples.dev_cleanup
                      (Samples.start Scenes.hindered)).1)
    ≠ listdir Scenes.hindered ∖ {[ "build"; "dist"; "pypots.egg-info" ]}.
Proof.
  split; [vm_compute; reflexivity|]. split; [compute_done|].
  split; [vm_compute; reflexivity|]. split; [compute_done|].
  intros Heq.
  assert ("dist" ∈ listdir (world (run Samples.all_pass Samples.dev_cleanup
                                     (Samples.start Scenes.hindered)).1))
    as Hin by compute_done.
  rewrite Heq in Hin. apply elem_of_difference in Hin as [_ Hn].
  apply Hn. rewrite !elem_of_union, !elem_of_singleton. auto.
Qed.

(** C6, amended, at work: [--cleanup] in a checkout that has [build] and
    [dist] but no [pypots.egg-info], and in one where only [build] can
    be deleted. *)
Lemma cleanup_removes_three_directories_witness :
  validated Samples.dev_cleanup (Samples.start Samples.checkout)
  ∧ ("pypots.egg-info" ∉ listdir Samples.checkout)
  ∧ (run Samples.all_pass Samples.dev_cleanup (Samples.start Samples.checkout)).2
    = Returned tt
  ∧ listdir (world (run Samples.all_pass Samples.dev_cleanup
                      (Samples.start Samples.checkout)).1)
    = {[ "docs"; "pypots"; "setup.py" ]}
  ∧ validated Samples.dev_cleanup (Samples.start Scenes.hindered)
  ∧ listdir (world (run Samples.all_pass Samples.dev_cleanup
                      (Samples.start Scenes.hindered)).1)
    = {[ "docs"; "pypots"; "setup.py"; "dist"; "pypots.egg-info" ]}.
Proof.
  assert (validated Samples.dev_cleanup (Samples.start Samples.checkout))
    as Hv by (vm_compute; reflexivity).
  assert (validated Samples.dev_cleanup (Samples.start Scenes.hindered))
    as Hv' by (vm_compute; reflexivity).
  split; [exact Hv|]. split; [compute_done|].
  destruct (cleanup_removes_three_directories Samples.all_pass
              Samples.dev_cleanup (Samples.start Samples.checkout) Hv eq_refl)
    as (Hret & Hls & _).
  destruct (cleanup_removes_three_directories Samples.all_pass
              Samples.dev_cleanup (Samples.start Scenes.hindered) Hv' eq_refl)
    as (_ & Hls' & _).
  split; [exact Hret|]. split; [rewrite Hls; vm_compute; reflexivity|].
  split; [exact Hv'|]. rewrite Hls'. vm_compute. reflexivity.
Defined.



(** C8 at work: a missing module while linting, and a failing test
    suite. *)
Lemma failures_are_reported_witness :
  run Samples.tool_missing Samples.dev_lint_code (Samples.start Samples.checkout)
  = ({| world := Samples.checkout;
        journal := [Logged "Reformatting with Black..."; Executed "black ."] |},
     Raised (Exc ImportError [ArgStr IMPORT_ERROR_MESSAGE]))
  ∧ run Samples.tests_fail Samples.dev_run_tests (Samples.start Samples.checkout)
    = ({| world := Samples.checkout;
          journal := [Logged "Executing 'pytest'..."; Executed "pytest"] |},
       Raised (Exc RuntimeError [ArgExc (Exc RuntimeError [])])).
Proof.
  split.
  - apply (proj1 (failures_are_reported Samples.tool_missing
             Samples.dev_lint_code (Samples.start Samples.checkout)
             {| world := Samples.checkout;
                journal := [Logged "Reformatting with Black...";
                            Executed "black ."] |}
             (Exc ModuleNotFoundError [ArgStr "No module named 'black'"])
             ltac:(vm_compute; reflexivity) ltac:(vm_compute; reflexivity))).
    reflexivity.
  - apply (proj1 (proj2 (failures_are_reported Samples.tests_fail
             Samples.dev_run_tests (Samples.start Samples.checkout)
             {| world := Samples.checkout;
                journal := [Logged "Executing 'pytest'..."; Executed "pytest"] |}
             (Exc RuntimeError [])
             ltac:(vm_compute; reflexivity) ltac:(vm_compute; reflexivity))));
      reflexivity.
Defined.

(** C9 at work: [--run_tests -k '']. *)
Lemma empty_filter_validated_then_ignored_witness :
  under_project_root Samples.checkout
  ∧ validated Samples.dev_run_tests_k_empty (Samples.start Samples.checkout)
  ∧ run Samples.all_pass Samples.dev_run_tests_k_empty
      (Samples.start Samples.checkout)
    = run Samples.all_pass Samples.dev_run_tests (Samples.start Samples.checkout)
  ∧ ∃ rest,
      journal (run Samples.all_pass Samples.dev_run_tests_k_empty
                 (Samples.start Samples.checkout)).1
      = [Logged "Executing 'pytest'..."; Executed "pytest"] ++ rest.
Proof.
  assert (under_project_root Samples.checkout) as Hwd by compute_done.
  split; [exact Hwd|].
  destruct (empty_filter_validated_then_ignored Samples.all_pass
              Samples.dev_run_tests_k_empty (Samples.start Samples.checkout)
              Hwd eq_refl eq_refl) as (_ & _ & _ & Hsame & Hrun).
  destruct (Hrun eq_refl eq_refl) as [Hv Hj].
  split; [exact Hv|]. split; [exact Hsame|exact Hj].
Defined.

(** C10 as stated fails: [--cleanup --build --show_coverage] sets cleanup
    and build, leaves run_tests and lint_code off, and is rejected, for
    [--show_coverage] without [--run_tests]. *)
Lemma cleanup_with_build_rejected_for_coverage :
  under_project_root Samples.checkout
  ∧ _cleanup Samples.dev_cleanup_build_coverage = true
  ∧ _build Samples.dev_cleanup_build_coverage = true
  ∧ _run_tests Samples.dev_cleanup_build_coverage = false
  ∧ _lint_code Samples.dev_cleanup_build_coverage = false
  ∧ run Samples.all_pass Samples.dev_cleanup_build_coverage
      (Samples.start Samples.checkout)
    = (Samples.start Samples.checkout,
       Raised (assertion_failure SHOW_COVERAGE_MESSAGE))
  ∧ ¬ validated Samples.dev_cleanup_build_coverage
        (Samples.start Samples.checkout).
Proof.
  split; [compute_done|]. do 4 (split; [reflexivity|]).
  split; [vm_compute; reflexivity|].
  unfold validated. intros Hv. vm_compute in Hv. discriminate Hv.
Qed.

(** C10, amended, at work: [--cleanup --build]. *)
Lemma cleanup_with_build_runs_cleanup_only_witness :
  under_project_root Samples.checkout
  ∧ validated Samples.dev_cleanup_build (Samples.start Samples.checkout)
  ∧ journal (run Samples.all_pass Samples.dev_cleanup_build
               (Samples.start Samples.checkout)).1
    = [Rmtree "build"; Rmtree "dist"; Rmtree "pypots.egg-info"].
Proof.
  assert (under_project_root Samples.checkout) as Hwd by compute_done.
  split; [exact Hwd|].
  destruct (cleanup_with_build_runs_cleanup_only Samples.all_pass
              Samples.dev_cleanup_build (Samples.start Samples.checkout)
              Hwd eq_refl eq_refl eq_refl eq_refl eq_refl eq_refl)
    as (Hv & _ & Hj & _).
  split; [exact Hv|exact Hj].
Defined.

(** ** Beyond single actions: what every run has in common *)

Section Steps_facts.

Variable spawn : string → World → World * option exception.

Implicit Types (self : DevCommand) (s : State) (w : World) (evs : list event).

Lemma do_step_eq ev s :
  do_step spawn ev s
  = ({| world :=
          match ev with
          | Logged _ => world s
          | Rmtree path => swept path (world s)
          | Executed cmd => (spawn cmd (world s)).1
          end;
        journal := journal s ++ [ev] |},
     match ev with
     | Executed cmd =>
         match (spawn cmd (world s)).2 with
         | None => Returned tt
         | Some e => Raised e
         end
     | _ => Returned tt
     end).
Proof.
  destruct ev as [msg|path|cmd]; simpl.
  - reflexivity.
  - apply shutil_rmtree_ignoring.
  - apply execute_command_eq.
Qed.

(** A step that is not a command cannot raise. *)
Lemma do_steps_cons ev evs s :
  do_steps spawn (ev :: evs) s
  = match (do_step spawn ev s).2 with
    | Returned _ => do_steps spawn evs (do_step spawn ev s).1
    | Raised e => ((do_step spawn ev s).1, Raised e)
    end.
Proof.
  simpl. unfold bind. destruct (do_step spawn ev s) as [s1 [[]|e]]; reflexivity.
Qed.

(** Steps are journaled in order, up to the one that raises. *)
Lemma do_steps_journal evs s :
  ∃ new,
    journal (do_steps spawn evs s).1 = journal s ++ new
    ∧ new `prefix_of` evs
    ∧ ((do_steps spawn evs s).2 = Returned tt → new = evs).
Proof.
  revert s. induction evs as [|ev evs IH]; intros s.
  - exists []. simpl. rewrite app_nil_r. auto.
  - rewrite do_steps_cons, do_step_eq. simpl.
    assert (∀ s1, journal s1 = journal s ++ [ev] →
              ∃ new,
                journal (do_steps spawn evs s1).1 = journal s ++ new
                ∧ new `prefix_of` ev :: evs
                ∧ ((do_steps spawn evs s1).2 = Returned tt → new = ev :: evs))
      as Hnext.
    { intros s1 Hs1. destruct (IH s1) as (new & Hj & Hp & Hr).
      exists (ev :: new). rewrite Hj, Hs1, <- app_assoc.
      split; [reflexivity|]. split; [by apply prefix_cons|].
      intros Hret. f_equal. exact (Hr Hret). }
    destruct ev as [msg|path|cmd]; simpl; try (apply Hnext; reflexivity).
    destruct (spawn cmd (world s)) as [w1 [e|]]; simpl;
      [|apply Hnext; reflexivity].
    exists [Executed cmd]. split; [reflexivity|].
    split; [|discriminate]. apply prefix_cons, prefix_nil.
Qed.

(** Steps without [rmtree] return normally exactly when their commands
    all complete. *)
Lemma do_steps_returns evs s :
  forallb (λ ev, negb (is_rmtree ev)) evs = true →
  (do_steps spawn evs s).2 = Returned tt
  ↔ completes spawn (executed evs) (world s) = true.
Proof.
  revert s. induction evs as [|ev evs IH]; intros s Hno.
  - simpl. split; reflexivity.
  - apply andb_true_iff in Hno as [Hev Hno].
    rewrite do_steps_cons, do_step_eq. simpl.
    destruct ev as [msg|path|cmd]; simpl in *; [|discriminate|].
    + apply (IH {| world := world s; journal := journal s ++ [Logged msg] |} Hno).
    + destruct (spawn cmd (world s)) as [w1 [e|]]; simpl.
      * split; discriminate.
      * apply (IH {| world := w1; journal := journal s ++ [Executed cmd] |} Hno).
Qed.

(** Steps without [rmtree] leave the system as the commands among them
    leave it. *)
Lemma do_steps_world evs s :
  forallb (λ ev, negb (is_rmtree ev)) evs = true →
  ∃ new,
    journal (do_steps spawn evs s).1 = journal s ++ new
    ∧ world (do_steps spawn evs s).1
      = after_commands spawn (executed new) (world s).
Proof.
  revert s. induction evs as [|ev evs IH]; intros s Hno.
  - exists []. simpl. rewrite app_nil_r. auto.
  - apply andb_true_iff in Hno as [Hev Hno].
    rewrite do_steps_cons, do_step_eq. simpl.
    destruct ev as [msg|path|cmd]; simpl in *; [|discriminate|].
    + edestruct (IH {| world := world s; journal := journal s ++ [Logged msg] |} Hno)
        as (new & Hj & Hw).
      exists (Logged msg :: new). rewrite Hj, Hw. simpl.
      rewrite <- app_assoc. auto.
    + destruct (spawn cmd (world s)) as [w1 [e|]] eqn:Hsp; simpl.
      * exists [Executed cmd]. simpl. rewrite Hsp. auto.
      * edestruct (IH {| world := w1; journal := journal s ++ [Executed cmd] |} Hno)
          as (new & Hj & Hw).
        exists (Executed cmd :: new). rewrite Hj, Hw. simpl.
        rewrite Hsp, <- app_assoc. auto.
Qed.

(** The body of [run] takes the steps of the action it dispatches to. *)
Lemma run_try_body_steps self s :
  run_try_body spawn self s = do_steps spawn (planned_steps self) s.
Proof.
  unfold run_try_body, planned_steps, chosen_action. simpl.
  destruct (_cleanup self); [|destruct (_build self);
    [|destruct (_run_tests self); [|destruct (_lint_code self)]]]; simpl.
  - unfold cleanup_branch, bind.
    destruct (shutil_rmtree "build" true s) as [s1 [[]|e1]]; [|reflexivity].
    destruct (shutil_rmtree "dist" true s1) as [s2 [[]|e2]]; [|reflexivity].
    destruct (shutil_rmtree "pypots.egg-info" true s2) as [s3 [[]|e3]];
      reflexivity.
  - unfold build_branch, bind.
    destruct (execute_command spawn _ s) as [s1 [[]|e1]]; reflexivity.
  - unfold run_tests_branch, before_cache_removal, bind.
    destruct (logger_info _ s) as [s0 [[]|e0]]; [|reflexivity].
    destruct (execute_command spawn _ s0) as [s1 [[]|e1]]; [|reflexivity].
    destruct (_show_coverage self); simpl; unfold bind, ret.
    + destruct (execute_command spawn "coverage report -m" s1)
        as [s2 [[]|e2]]; [|reflexivity].
      destruct (execute_command spawn "rm -rf .coverage" s2)
        as [s3 [[]|e3]]; [|reflexivity].
      destruct (execute_command spawn "rm -rf .pytest_cache" s3)
        as [s4 [[]|e4]]; reflexivity.
    + destruct (execute_command spawn "rm -rf .pytest_cache" s1)
        as [s4 [[]|e4]]; reflexivity.
  - unfold lint_code_branch, bind.
    destruct (logger_info _ s) as [s0 [[]|e0]]; [|reflexivity].
    destruct (execute_command spawn "black ." s0) as [s1 [[]|e1]]; [|reflexivity].
    destruct (logger_info _ s1) as [s2 [[]|e2]]; [|reflexivity].
    destruct (execute_command spawn "flake8 ." s2) as [s3 [[]|e3]]; reflexivity.
  - reflexivity.
Qed.

(** Only the cleanup calls [rmtree]. *)
Lemma planned_steps_no_rmtree self :
  _cleanup self = false →
  forallb (λ ev, negb (is_rmtree ev)) (planned_steps self) = true.
Proof.
  intros Hc. unfold planned_steps, chosen_action. simpl. rewrite Hc.
  destruct (_build self); [reflexivity|].
  destruct (_run_tests self); [|destruct (_lint_code self); reflexivity].
  unfold steps, before_cache_removal. destruct (_show_coverage self); reflexivity.
Qed.

(** The handlers never turn a raise into a return. *)
Lemma guarded_returns (m : M unit) s :
  (try_except m run_handlers s).2 = Returned tt ↔ (m s).2 = Returned tt.
Proof.
  unfold try_except. destruct (m s) as [s' [[]|e]]; simpl; [tauto|].
  unfold run_handlers, raise.
  destruct (isinstance e ImportError), (isinstance e Exception);
    simpl; split; discriminate.
Qed.

(** The first step of a plan is always taken. *)
Lemma do_steps_first ev evs s :
  ∃ more, journal (do_steps spawn (ev :: evs) s).1 = journal s ++ ev :: more.
Proof.
  rewrite do_steps_cons.
  destruct (do_step spawn ev s) as [s1 r] eqn:Hstep.
  assert (journal s1 = journal s ++ [ev]) as Hs1
    by (rewrite do_step_eq in Hstep; injection Hstep as <- _; reflexivity).
  simpl. destruct r as [[]|e]; simpl.
  - destruct (do_steps_journal evs s1) as (new & Hj & _).
    exists new. rewrite Hj, Hs1, <- app_assoc. reflexivity.
  - exists []. exact Hs1.
Qed.

(** Every action has a first step. *)
Lemma steps_not_nil self a : steps self a ≠ [].
Proof. destruct a; discriminate. Qed.

End Steps_facts.

(** ** Dispatch by priority *)

Section Dispatch.

Variable spawn : string → World → World * option exception.

Implicit Types (self : DevCommand) (s : State).

(** C1: a validated command takes the steps of one action, the one of
    the first set flag in the order cleanup, build, run_tests, lint_code,
    under the handlers of [run]. What it journals is a prefix of these
    steps, in their order, all of them when it returns normally, and
    never empty when a flag is set. When none of the four flags is set
    it returns at once, with the system untouched and nothing
    journaled. *)
Theorem run_dispatches_by_priority self s :
  validated self s →
  run spawn self s
  = try_except
      (do_steps spawn
         match chosen_action self with
         | Some a => steps self a
         | None => []
         end)
      run_handlers s
  ∧ (∃ new,
       journal (run spawn self s).1 = journal s ++ new
       ∧ new `prefix_of` match chosen_action self with
                         | Some a => steps self a
                         | None => []
                         end
       ∧ ((run spawn self s).2 = Returned tt →
          new = match chosen_action self with
                | Some a => steps self a
                | None => []
                end)
       ∧ (new = [] → chosen_action self = None))
  ∧ (chosen_action self = None → run spawn self s = (s, Returned tt)).
Proof.
  intros Hv. fold (planned_steps self).
  assert (run spawn self s
          = try_except (do_steps spawn (planned_steps self)) run_handlers s)
    as Hrun.
  { rewrite (run_validated spawn self s Hv). unfold try_except.
    rewrite run_try_body_steps. reflexivity. }
  split; [exact Hrun|]. split.
  - destruct (do_steps_journal spawn (planned_steps self) s)
      as (new & Hj & Hp & Hr).
    exists new. rewrite Hrun, guarded_state, guarded_returns.
    split; [exact Hj|]. split; [exact Hp|]. split; [exact Hr|].
    intros ->. rewrite app_nil_r in Hj.
    destruct (chosen_action self) as [a|] eqn:Ha; [exfalso|reflexivity].
    unfold planned_steps in Hj. rewrite Ha in Hj.
    destruct (steps self a) as [|ev evs] eqn:Hs;
      [exact (steps_not_nil self a Hs)|].
    destruct (do_steps_first spawn ev evs s) as (more & Hm).
    rewrite Hm in Hj. rewrite <- (app_nil_r (journal s)) in Hj at 2.
    apply app_inv_head in Hj. discriminate Hj.
  - intros Hnone. rewrite Hrun. unfold planned_steps. rewrite Hnone.
    reflexivity.
Qed.

End Dispatch.

(** C1 at work: [--lint_code] alone takes the four steps of linting, and
    without any flag nothing happens. *)
Lemma run_dispatches_by_priority_witness :
  validated Samples.dev_lint_code (Samples.start Samples.checkout)
  ∧ journal (run Samples.all_pass Samples.dev_lint_code
               (Samples.start Samples.checkout)).1
    = [Logged "Reformatting with Black..."; Executed "black .";
       Logged "Linting with Flake8..."; Executed "flake8 ."]
  ∧ validated Samples.no_flags (Samples.start Samples.checkout)
  ∧ run Samples.all_pass Samples.no_flags (Samples.start Samples.checkout)
    = (Samples.start Samples.checkout, Returned tt).
Proof.
  assert (validated Samples.dev_lint_code (Samples.start Samples.checkout))
    as Hv1 by (vm_compute; reflexivity).
  assert (validated Samples.no_flags (Samples.start Samples.checkout))
    as Hv2 by (vm_compute; reflexivity).
  split; [exact Hv1|]. split.
  - destruct (run_dispatches_by_priority Samples.all_pass
                Samples.dev_lint_code (Samples.start Samples.checkout) Hv1)
      as (_ & (new & Hj & _ & Hall & _) & _).
    rewrite Hj, Hall; [reflexivity|]. vm_compute. reflexivity.
  - split; [exact Hv2|].
    exact (proj2 (proj2 (run_dispatches_by_priority Samples.all_pass
                           Samples.no_flags (Samples.start Samples.checkout)
                           Hv2)) eq_refl).
Defined.

Section Whole_runs.

Variable spawn : string → World → World * option exception.

Implicit Types (self : DevCommand) (s : State) (w : World).

(** The check either lets the command through or fails an assertion, in
    the state it was called in. *)
Lemma check_arguments_cases self s :
  validated self s
  ∨ ∃ msg, check_arguments self s = (s, Raised (assertion_failure msg)).
Proof.
  unfold validated.
  destruct (decide (under_project_root (world s))) as [Hwd|Hwd].
  - rewrite (check_arguments_at_root self s Hwd).
    destruct (is_not_None (_k self) && negb (_run_tests self)); [eauto|].
    destruct (_show_coverage self && negb (_run_tests self)); [eauto|].
    destruct (_cleanup self && (_run_tests self || _lint_code self)); eauto.
  - rewrite (check_arguments_elsewhere self s Hwd). eauto.
Qed.

(** An accepted command has [--run_tests] whenever it has [-k] or
    [--show_coverage]. *)
Lemma validated_dependent_flags self s :
  validated self s →
  (is_not_None (_k self) = true → _run_tests self = true)
  ∧ (_show_coverage self = true → _run_tests self = true).
Proof.
  intros Hv. pose proof (validated_at_root self s Hv) as Hwd.
  unfold validated in Hv. rewrite (check_arguments_at_root self s Hwd) in Hv.
  destruct (is_not_None (_k self)), (_run_tests self), (_show_coverage self);
    simpl in Hv; try discriminate Hv; auto.
Qed.

(** X1: the arguments are accepted exactly when the command is run in
    the project root, [-k] and [--show_coverage] come with [--run_tests],
    and [--cleanup] comes with neither [--run_tests] nor [--lint_code].
    [--build] is never looked at. *)
Theorem validation_accepts_iff self s :
  validated self s
  ↔ under_project_root (world s)
    ∧ (is_not_None (_k self) = true → _run_tests self = true)
    ∧ (_show_coverage self = true → _run_tests self = true)
    ∧ (_cleanup self = true →
       _run_tests self = false ∧ _lint_code self = false).
Proof.
  split.
  - intros Hv. pose proof (validated_at_root self s Hv) as Hwd.
    split; [exact Hwd|]. unfold validated in Hv.
    rewrite (check_arguments_at_root self s Hwd) in Hv.
    destruct (is_not_None (_k self)), (_run_tests self), (_show_coverage self),
      (_cleanup self), (_lint_code self); simpl in Hv;
      try discriminate Hv; auto.
  - intros (Hwd & Hk & Hsc & Hc). unfold validated.
    rewrite (check_arguments_at_root self s Hwd).
    destruct (is_not_None (_k self)), (_run_tests self), (_show_coverage self),
      (_cleanup self), (_lint_code self); simpl; try reflexivity;
      try (specialize (Hk eq_refl); discriminate Hk);
      try (specialize (Hsc eq_refl); discriminate Hsc);
      destruct (Hc eq_refl) as [? ?]; discriminate.
Qed.

(** X2: checking the arguments changes nothing and journals nothing, and
    it ends in one of five ways: it returns, or it raises an
    [AssertionError] with one of the four messages of the source. *)
Theorem validation_only_asserts self s :
  (check_arguments self s).1 = s
  ∧ ((check_arguments self s).2 = Returned tt
     ∨ ∃ msg,
         (check_arguments self s).2 = Raised (assertion_failure msg)
         ∧ msg ∈ [WORKDIR_MESSAGE (getcwd (world s)); K_MESSAGE;
                  SHOW_COVERAGE_MESSAGE; CLEANUP_MESSAGE]).
Proof.
  split; [apply check_arguments_state|].
  destruct (decide (under_project_root (world s))) as [Hwd|Hwd].
  - rewrite (check_arguments_at_root self s Hwd). simpl.
    destruct (is_not_None (_k self) && negb (_run_tests self));
      [right; eexists; split; [reflexivity|]; rewrite !elem_of_cons; auto|].
    destruct (_show_coverage self && negb (_run_tests self));
      [right; eexists; split; [reflexivity|]; rewrite !elem_of_cons; auto|].
    destruct (_cleanup self && (_run_tests self || _lint_code self));
      [right; eexists; split; [reflexivity|]; rewrite !elem_of_cons; auto|].
    left. reflexivity.
  - rewrite (check_arguments_elsewhere self s Hwd). simpl.
    right. eexists. split; [reflexivity|]. rewrite !elem_of_cons. auto.
Qed.

(** X3: when the arguments are not accepted, [run] is the failed check
    and no more: the [AssertionError] comes out as it is, not wrapped by
    the handlers of [run], whatever the commands would have done, with
    the system and the journal untouched. *)
Theorem rejected_run_raises_the_assertion self s :
  ¬ validated self s →
  run spawn self s = check_arguments self s
  ∧ ∃ msg, run spawn self s = (s, Raised (assertion_failure msg)).
Proof.
  intros Hnv.
  destruct (check_arguments_cases self s) as [Hv|(msg & Hc)].
  - exfalso. exact (Hnv Hv).
  - rewrite (run_rejected spawn self s _ Hc). split; [symmetry; exact Hc|].
    exists msg. reflexivity.
Qed.

(** X4: every validated run journals a prefix of the steps of the one
    action it dispatches to, in their order, and all of them when it
    returns normally. *)
Theorem run_follows_the_plan self s :
  validated self s →
  ∃ new,
    journal (run spawn self s).1 = journal s ++ new
    ∧ new `prefix_of` planned_steps self
    ∧ ((run spawn self s).2 = Returned tt → new = planned_steps self).
Proof.
  intros Hv.
  destruct (do_steps_journal spawn (planned_steps self) s) as (new & Hj & Hp & Hr).
  exists new. rewrite (run_validated spawn self s Hv).
  rewrite guarded_state, guarded_returns, run_try_body_steps. auto.
Qed.

(** X5: a validated run returns normally exactly when the commands of
    the action it dispatches to all complete, each run in the system the
    one before it left. *)
Theorem run_returns_iff_commands_complete self s :
  validated self s →
  (run spawn self s).2 = Returned tt
  ↔ completes spawn (executed (planned_steps self)) (world s) = true.
Proof.
  intros Hv. destruct (_cleanup self) eqn:Hc.
  - rewrite (run_cleanup spawn self s Hv Hc), cleanup_branch_eq.
    unfold planned_steps, chosen_action. simpl. rewrite Hc. simpl. tauto.
  - rewrite (run_validated spawn self s Hv), guarded_returns,
      run_try_body_steps.
    apply do_steps_returns, planned_steps_no_rmtree, Hc.
Qed.

(** X6: outside the cleanup, [run] changes the system only through the
    commands it has journaled: the system after the run is the one these
    commands leave, run in order from the system before. *)
Theorem system_changes_only_through_commands self s :
  validated self s →
  _cleanup self = false →
  ∃ new,
    journal (run spawn self s).1 = journal s ++ new
    ∧ world (run spawn self s).1
      = after_commands spawn (executed new) (world s).
Proof.
  intros Hv Hc.
  destruct (do_steps_world spawn (planned_steps self) s
              (planned_steps_no_rmtree self Hc)) as (new & Hj & Hw).
  exists new. rewrite (run_validated spawn self s Hv).
  rewrite guarded_state, run_try_body_steps. auto.
Qed.

(** X7: an exception that leaves [run] is the [AssertionError] of a
    failed check, with nothing done, or else, after validation, one of
    three: the [ImportError] with the fixed message, a [RuntimeError]
    around an [Exception] that is not an import failure, or something
    that is not an [Exception] at all. No other error of a command gets
    out as it is. *)
Theorem run_raises_only self s s' e :
  run spawn self s = (s', Raised e) →
  (¬ validated self s ∧ s' = s ∧ ∃ msg, e = assertion_failure msg)
  ∨ (validated self s
     ∧ (e = Exc ImportError [ArgStr IMPORT_ERROR_MESSAGE]
        ∨ (∃ e', e = Exc RuntimeError [ArgExc e']
                 ∧ isinstance e' Exception = true
                 ∧ isinstance e' ImportError = false)
        ∨ isinstance e Exception = false)).
Proof.
  intros Hrun.
  destruct (check_arguments_cases self s) as [Hv|(msg & Hc)].
  - right.
    split; [exact Hv|]. rewrite (run_validated spawn self s Hv) in Hrun.
    unfold try_except in Hrun.
    destruct (run_try_body spawn self s) as [s1 [[]|e1]]; [discriminate Hrun|].
    unfold run_handlers, raise in Hrun.
    destruct (isinstance e1 ImportError) eqn:Hi.
    { injection Hrun as _ <-. left. reflexivity. }
    destruct (isinstance e1 Exception) eqn:He; injection Hrun as _ <-.
    + right. left. exists e1. auto.
    + right. right. exact He.
  - left.
    rewrite (run_rejected spawn self s _ Hc) in Hrun.
    injection Hrun as <- <-.
    split; [|split; [reflexivity|exists msg; reflexivity]].
    unfold validated. rewrite Hc. discriminate.
Qed.

(** X8: [--build] without [--cleanup] runs the packaging command and
    nothing else, also when [--run_tests], [--lint_code], [-k] or
    [--show_coverage] are given with it: tests and linting are dropped
    without a word. The run returns normally exactly when the packaging
    command completes. *)
Theorem build_runs_the_packaging_only self s :
  validated self s →
  _cleanup self = false →
  _build self = true →
  journal (run spawn self s).1
  = journal s ++ [Executed "python setup.py sdist bdist bdist_wheel"]
  ∧ world (run spawn self s).1
    = (spawn "python setup.py sdist bdist bdist_wheel" (world s)).1
  ∧ ((run spawn self s).2 = Returned tt
     ↔ (spawn "python setup.py sdist bdist bdist_wheel" (world s)).2 = None).
Proof.
  intros Hv Hc Hb. rewrite (run_validated spawn self s Hv).
  rewrite guarded_state, guarded_returns.
  unfold run_try_body. rewrite Hc, Hb. unfold build_branch.
  rewrite execute_command_eq. simpl.
  split; [reflexivity|]. split; [reflexivity|].
  destruct (spawn _ (world s)).2; split; (reflexivity || discriminate).
Qed.

(** X9: the lint action runs the formatter and then, only if the
    formatter completes, the style checker, in the system the formatter
    left; when the formatter raises, the style checker is not run. *)
Theorem lint_formats_then_checks self s :
  validated self s →
  _cleanup self = false → _build self = false →
  _run_tests self = false → _lint_code self = true →
  ((spawn "black ." (world s)).2 = None →
   journal (run spawn self s).1
   = journal s
     ++ [Logged "Reformatting with Black..."; Executed "black .";
         Logged "Linting with Flake8..."; Executed "flake8 ."]
   ∧ world (run spawn self s).1
     = (spawn "flake8 ." (spawn "black ." (world s)).1).1)
  ∧ (∀ e, (spawn "black ." (world s)).2 = Some e →
     journal (run spawn self s).1
     = journal s ++ [Logged "Reformatting with Black..."; Executed "black ."]).
Proof.
  intros Hv Hc Hb Hr Hl. rewrite (run_validated spawn self s Hv).
  rewrite guarded_state.
  unfold run_try_body. rewrite Hc, Hb, Hr, Hl.
  unfold lint_code_branch, logger_info, bind, record_event.
  rewrite ?execute_command_eq. simpl.
  destruct (spawn "black ." (world s)) as [w1 [e1|]]; simpl.
  - split; [discriminate|]. intros e _. rewrite <- app_assoc. reflexivity.
  - rewrite ?execute_command_eq. simpl. split; [|discriminate].
    intros _. rewrite <- !app_assoc. simpl.
    destruct (spawn "flake8 ." w1) as [w2 [e2|]]; simpl; auto.
Qed.

(** X10: a cleanup leaves the project root a project root, so the
    command is accepted again, and a second cleanup, whatever commands
    would do, returns normally and changes nothing more. *)
Theorem cleanup_can_be_repeated
    (spawn' : string → World → World * option exception) self s :
  validated self s →
  _cleanup self = true →
  validated self (run spawn self s).1
  ∧ (run spawn' self (run spawn self s).1).2 = Returned tt
  ∧ world (run spawn' self (run spawn self s).1).1
    = world (run spawn self s).1.
Proof.
  intros Hv Hc.
  pose proof (validated_at_root self s Hv) as [Hd Hp].
  rewrite (run_cleanup spawn self s Hv Hc), cleanup_branch_eq. simpl.
  set (s1 := {| world := _; journal := _ |}).
  assert (under_project_root (world s1)) as Hwd1.
  { subst s1. unfold under_project_root. simpl.
    rewrite !elem_of_difference, !elem_of_union, !elem_of_singleton.
    split; (split; [assumption|]); intros [[[H|H]|H] _]; discriminate H. }
  assert (validated self s1) as Hv1.
  { unfold validated in *.
    rewrite (check_arguments_at_root self s (conj Hd Hp)) in Hv.
    rewrite (check_arguments_at_root self s1 Hwd1).
    destruct (is_not_None (_k self) && negb (_run_tests self));
      [discriminate Hv|].
    destruct (_show_coverage self && negb (_run_tests self));
      [discriminate Hv|].
    destruct (_cleanup self && (_run_tests self || _lint_code self));
      [discriminate Hv|reflexivity]. }
  split; [exact Hv1|].
  rewrite (run_cleanup spawn' self s1 Hv1 Hc), cleanup_branch_eq. simpl.
  split; [reflexivity|].
  f_equal. rewrite difference_difference_l_L. f_equal.
  apply set_eq. intros x.
  rewrite !elem_of_union, !elem_of_difference, !elem_of_union. clear. tauto.
Qed.

(** X11: for a command built from parsed options and accepted, the run
    journals nothing exactly when no option at all was given. *)
Theorem nothing_done_iff_no_option (args : Cli.Namespace) s :
  validated (Cli.dev_command_factory args) s →
  journal (run spawn (Cli.dev_command_factory args) s).1 = journal s
  ↔ args = Cli.defaults.
Proof.
  intros Hv. split.
  - intros Hj.
    pose proof (validated_dependent_flags _ s Hv) as (Hk & Hsc).
    rewrite (run_validated spawn _ s Hv), guarded_state, run_try_body_steps
      in Hj.
    assert (planned_steps (Cli.dev_command_factory args) = []) as Hplan.
    { destruct (planned_steps (Cli.dev_command_factory args)) as [|ev evs];
        [reflexivity|exfalso].
      rewrite do_steps_cons, do_step_eq in Hj.
      match type of Hj with
      | context [match ?r with Returned _ => do_steps spawn evs ?s1 | _ => _ end] =>
          destruct (do_steps_journal spawn evs s1) as (new & Hn & _);
          destruct r; simpl in Hj, Hn; [rewrite Hn in Hj; simpl in Hj|]
      end.
      - rewrite <- app_assoc in Hj.
        rewrite <- (app_nil_r (journal s)) in Hj at 2.
        apply app_inv_head in Hj. discriminate Hj.
      - rewrite <- (app_nil_r (journal s)) in Hj at 2.
        apply app_inv_head in Hj. discriminate Hj. }
    destruct args as [b c r sc k l].
    unfold planned_steps, chosen_action, Cli.dev_command_factory,
      Cli.__init__ in *. simpl in *.
    destruct c; [discriminate Hplan|]. destruct b; [discriminate Hplan|].
    destruct r; [destruct sc; discriminate Hplan|].
    destruct l; [discriminate Hplan|].
    destruct sc; [specialize (Hsc eq_refl); discriminate Hsc|].
    destruct k; [specialize (Hk eq_refl); discriminate Hk|].
    reflexivity.
  - intros ->. rewrite (run_validated spawn _ s Hv). reflexivity.
Qed.

End Whole_runs.

(** X3 at work: [-k imputation] without [--run_tests], with an interrupt
    waiting in every command. *)
Lemma rejected_run_raises_the_assertion_witness :
  ¬ validated Samples.dev_k_alone (Scenes.fresh Samples.checkout)
  ∧ run Scenes.interrupted Samples.dev_k_alone (Scenes.fresh Samples.checkout)
    = check_arguments Samples.dev_k_alone (Scenes.fresh Samples.checkout).
Proof.
  assert (¬ validated Samples.dev_k_alone (Scenes.fresh Samples.checkout))
    as Hnv by (unfold validated; vm_compute; discriminate).
  split; [exact Hnv|].
  exact (proj1 (rejected_run_raises_the_assertion Scenes.interrupted
                  Samples.dev_k_alone (Scenes.fresh Samples.checkout) Hnv)).
Defined.

(** X4 at work: linting with a formatter that cannot be started. *)
Lemma run_follows_the_plan_witness :
  validated Scenes.dev_lint (Scenes.fresh Samples.checkout)
  ∧ ∃ new,
      journal (run Scenes.black_fails Scenes.dev_lint
                 (Scenes.fresh Samples.checkout)).1
      = [] ++ new
      ∧ new `prefix_of` [Logged "Reformatting with Black..."; Executed "black .";
                         Logged "Linting with Flake8..."; Executed "flake8 ."].
Proof.
  assert (validated Scenes.dev_lint (Scenes.fresh Samples.checkout)) as Hv
    by (vm_compute; reflexivity).
  split; [exact Hv|].
  destruct (run_follows_the_plan Scenes.black_fails Scenes.dev_lint
              (Scenes.fresh Samples.checkout) Hv) as (new & Hj & Hp & _).
  exists new. split; [exact Hj|exact Hp].
Defined.

(** X5 at work: tests with coverage, every tool working. *)
Lemma run_returns_iff_commands_complete_witness :
  validated Scenes.dev_tests_coverage (Scenes.fresh Scenes.worked_in)
  ∧ (run Scenes.tools_work Scenes.dev_tests_coverage
       (Scenes.fresh Scenes.worked_in)).2
    = Returned tt.
Proof.
  assert (validated Scenes.dev_tests_coverage (Scenes.fresh Scenes.worked_in))
    as Hv by (vm_compute; reflexivity).
  split; [exact Hv|].
  apply (run_returns_iff_commands_complete Scenes.tools_work
           Scenes.dev_tests_coverage (Scenes.fresh Scenes.worked_in) Hv).
  vm_compute. reflexivity.
Defined.

(** X6 at work: a build in a checkout. *)
Lemma system_changes_only_through_commands_witness :
  validated Scenes.dev_build_and_more (Scenes.fresh Samples.checkout)
  ∧ ∃ new,
      journal (run Scenes.tools_work Scenes.dev_build_and_more
                 (Scenes.fresh Samples.checkout)).1
      = [] ++ new
      ∧ world (run Scenes.tools_work Scenes.dev_build_and_more
                 (Scenes.fresh Samples.checkout)).1
        = after_commands Scenes.tools_work (executed new) Samples.checkout.
Proof.
  assert (validated Scenes.dev_build_and_more (Scenes.fresh Samples.checkout))
    as Hv by (vm_compute; reflexivity).
  split; [exact Hv|].
  exact (system_changes_only_through_commands Scenes.tools_work
           Scenes.dev_build_and_more (Scenes.fresh Samples.checkout)
           Hv eq_refl).
Defined.

(** X7 at work: an interrupt while linting is not an [Exception] and
    comes out as it is. *)
Lemma run_raises_only_witness :
  run Scenes.interrupted Scenes.dev_lint (Scenes.fresh Samples.checkout)
  = ({| world := Samples.checkout;
        journal := [Logged "Reformatting with Black..."; Executed "black ."] |},
     Raised (Exc KeyboardInterrupt []))
  ∧ validated Scenes.dev_lint (Scenes.fresh Samples.checkout)
  ∧ isinstance (Exc KeyboardInterrupt []) Exception = false.
Proof.
  assert (run Scenes.interrupted Scenes.dev_lint (Scenes.fresh Samples.checkout)
          = ({| world := Samples.checkout;
                journal := [Logged "Reformatting with Black...";
                            Executed "black ."] |},
             Raised (Exc KeyboardInterrupt []))) as Hrun
    by (vm_compute; reflexivity).
  split; [exact Hrun|].
  destruct (run_raises_only Scenes.interrupted Scenes.dev_lint
              (Scenes.fresh Samples.checkout) _ _ Hrun)
    as [(_ & _ & msg & Hmsg)|(Hv & _)].
  - discriminate Hmsg.
  - split; [exact Hv|reflexivity].
Defined.

(** X8 at work: [--build --run_tests --show_coverage --lint_code -k
    imputation] only builds. *)
Lemma build_runs_the_packaging_only_witness :
  validated Scenes.dev_build_and_more (Scenes.fresh Samples.checkout)
  ∧ journal (run Scenes.tools_work Scenes.dev_build_and_more
               (Scenes.fresh Samples.checkout)).1
    = [Executed "python setup.py sdist bdist bdist_wheel"].
Proof.
  assert (validated Scenes.dev_build_and_more (Scenes.fresh Samples.checkout))
    as Hv by (vm_compute; reflexivity).
  split; [exact Hv|].
  exact (proj1 (build_runs_the_packaging_only Scenes.tools_work
                  Scenes.dev_build_and_more (Scenes.fresh Samples.checkout)
                  Hv eq_refl eq_refl)).
Defined.

(** X9 at work: linting with a formatter that cannot be started, and
    with tools that work. *)
Lemma lint_formats_then_checks_witness :
  validated Scenes.dev_lint (Scenes.fresh Samples.checkout)
  ∧ journal (run Scenes.black_fails Scenes.dev_lint
               (Scenes.fresh Samples.checkout)).1
    = [Logged "Reformatting with Black..."; Executed "black ."]
  ∧ journal (run Scenes.tools_work Scenes.dev_lint
               (Scenes.fresh Samples.checkout)).1
    = [Logged "Reformatting with Black..."; Executed "black .";
       Logged "Linting with Flake8..."; Executed "flake8 ."].
Proof.
  assert (validated Scenes.dev_lint (Scenes.fresh Samples.checkout)) as Hv
    by (vm_compute; reflexivity).
  split; [exact Hv|]. split.
  - exact (proj2 (lint_formats_then_checks Scenes.black_fails Scenes.dev_lint
                    (Scenes.fresh Samples.checkout)
                    Hv eq_refl eq_refl eq_refl eq_refl)
             (Exc OSError [ArgStr "black"]) eq_refl).
  - exact (proj1 (proj1 (lint_formats_then_checks Scenes.tools_work
                           Scenes.dev_lint (Scenes.fresh Samples.checkout)
                           Hv eq_refl eq_refl eq_refl eq_refl) eq_refl)).
Defined.

(** X10 at work: cleaning up twice after a build and a test run. *)
Lemma cleanup_can_be_repeated_witness :
  validated Scenes.dev_clean (Scenes.fresh Scenes.worked_in)
  ∧ validated Scenes.dev_clean
      (run Scenes.tools_work Scenes.dev_clean (Scenes.fresh Scenes.worked_in)).1
  ∧ (run Scenes.interrupted Scenes.dev_clean
       (run Scenes.tools_work Scenes.dev_clean
          (Scenes.fresh Scenes.worked_in)).1).2
    = Returned tt.
Proof.
  assert (validated Scenes.dev_clean (Scenes.fresh Scenes.worked_in)) as Hv
    by (vm_compute; reflexivity).
  split; [exact Hv|].
  destruct (cleanup_can_be_repeated Scenes.tools_work Scenes.interrupted
              Scenes.dev_clean (Scenes.fresh Scenes.worked_in) Hv eq_refl)
    as (Hv1 & Hret & _).
  split; [exact Hv1|exact Hret].
Defined.

(** X11 at work: [pypots-cli dev] without options, in the project
    root. *)
Lemma nothing_done_iff_no_option_witness :
  validated (Cli.dev_command_factory Cli.defaults) (Scenes.fresh Samples.checkout)
  ∧ journal (run Scenes.tools_work (Cli.dev_command_factory Cli.defaults)
               (Scenes.fresh Samples.checkout)).1
    = [].
Proof.
  assert (validated (Cli.dev_command_factory Cli.defaults)
            (Scenes.fresh Samples.checkout)) as Hv by (vm_compute; reflexivity).
  split; [exact Hv|].
  exact (proj2 (nothing_done_iff_no_option Scenes.tools_work Cli.defaults
                  (Scenes.fresh Samples.checkout) Hv) eq_refl).
Defined.
